(** * SmartFiltering: the filter / score / suggest routine of the three agents

    A shallow embedding of [my_agent/data/mock_db.py] and of the three search
    tools [search_transport_listings], [search_accommodation_listings] and
    [search_item_listings], followed by the properties of the ranking routine.

    Modelling conventions.
    - A Python [float] is an exact rational ([Q]); rounding, NaN and the
      infinities are outside the model.  The one place where the code uses an
      infinity, [best_score = float("-inf")], is modelled by [efloat].
    - A Python [str] is a [string] of bytes; [lower] folds the ASCII letters.
    - A Python [int] is a [Z].
    - A raised exception is a value of the error monad [result].
    - The module-level list [mock_listings] is read by the search tools; it is
      an explicit argument of the embedded functions. *)

From Stdlib Require Import List String Ascii Bool ZArith QArith Lia Lqa.
From Stdlib Require Import Permutation Sorted.
Import ListNotations.

Set Implicit Arguments.

(** ** Python values *)

Definition float := Q.

(** [a < b], [a > b] on floats; [<=], [>=] and [==] are [Qle_bool] and
    [Qeq_bool]. *)
Definition Qlt_bool (a b : Q) : bool := negb (Qle_bool b a).
Definition Qgt_bool (a b : Q) : bool := Qlt_bool b a.
Definition Qge_bool (a b : Q) : bool := Qle_bool b a.

(** A float that may be [float("-inf")]. *)
Inductive efloat : Type :=
| NegInf
| Fin (q : Q).

(** [x > e] for a finite [x]. *)
Definition gt_efloat (x : Q) (e : efloat) : bool :=
  match e with
  | NegInf => true
  | Fin q => Qgt_bool x q
  end.

(** Exceptions the search tools could raise, and the error monad. *)
Inductive exn : Type :=
| ValueError
| AttributeError.

Inductive result (A : Type) : Type :=
| Ok (a : A)
| Raise (e : exn).

Arguments Ok {A} a.
Arguments Raise {A} e.

Definition bind {A B : Type} (m : result A) (k : A -> result B) : result B :=
  match m with
  | Ok a => k a
  | Raise e => Raise e
  end.

Notation "x <- m ;; k" := (bind m (fun x => k))
  (at level 61, m at next level, right associativity).

(** ** Builtins *)

Section Builtins.

Local Open Scope char_scope.

Definition lower_ascii (c : ascii) : ascii :=
  let n := nat_of_ascii c in
  if andb (Nat.leb 65 n) (Nat.leb n 90) then ascii_of_nat (n + 32) else c.

(** [s.lower()] *)
Fixpoint lower (s : string) : string :=
  match s with
  | EmptyString => EmptyString
  | String c s' => String (lower_ascii c) (lower s')
  end.

(** [sub in s] on strings. *)
Fixpoint str_in (sub s : string) : bool :=
  if prefix sub s then true
  else match s with
       | EmptyString => false
       | String _ s' => str_in sub s'
       end.

(** Truth value of a string: the empty string is false. *)
Definition str_bool (s : string) : bool :=
  match s with
  | EmptyString => false
  | String _ _ => true
  end.

(** Truth value of an int: zero is false. *)
Definition int_bool (n : Z) : bool := negb (Z.eqb n 0).

(** Truth value of a list ([not l] is its negation). *)
Definition list_bool {A : Type} (l : list A) : bool :=
  match l with
  | [] => false
  | _ :: _ => true
  end.

(** [max(xs)]: the running maximum is replaced when an element is greater;
    an empty argument raises [ValueError]. *)
Definition py_max (xs : list Q) : result Q :=
  match xs with
  | [] => Raise ValueError
  | x :: xs' => Ok (fold_left (fun m y => if Qgt_bool y m then y else m) xs' x)
  end.

(** [min(xs)] *)
Definition py_min (xs : list Q) : result Q :=
  match xs with
  | [] => Raise ValueError
  | x :: xs' => Ok (fold_left (fun m y => if Qlt_bool y m then y else m) xs' x)
  end.

(** [a < b] on pairs of floats: the first position where the pairs differ
    decides. *)
Definition tuple_lt (a b : Q * Q) : bool :=
  if Qeq_bool (fst a) (fst b)
  then if Qeq_bool (snd a) (snd b) then false else Qlt_bool (snd a) (snd b)
  else Qlt_bool (fst a) (fst b).

(** [sorted(l, key=key)]: the stable sort that compares keys with [<]. *)
Fixpoint insort {A : Type} (key : A -> Q * Q) (x : A) (l : list A) : list A :=
  match l with
  | [] => [x]
  | y :: l' =>
      if tuple_lt (key y) (key x) then y :: insort key x l' else x :: y :: l'
  end.

Definition sorted {A : Type} (key : A -> Q * Q) (l : list A) : list A :=
  fold_right (insort key) [] l.

End Builtins.

(** ** [mock_db.py] *)

Record Listing : Type := mkListing {
  listingId : string;
  ownerId : string;
  title : string;
  description : string;
  basePrice : float;
  location : string;
  averageRating : float
}.

Record Transport : Type := mkTransport {
  Transport_base :> Listing;
  vehicleType : string;
  make : string;
  model : string;
  year : Z
}.

Record Accommodation : Type := mkAccommodation {
  Accommodation_base :> Listing;
  propertyType : string;
  numGuests : Z
}.

Record Item : Type := mkItem {
  Item_base :> Listing;
  itemCategory : string
}.

(** An element of a [List[Listing]]: an object of the base class or of one
    of its three subclasses. *)
Inductive Object : Type :=
| IsListing (l : Listing)
| IsTransport (t : Transport)
| IsAccommodation (a : Accommodation)
| IsItem (i : Item).

Section MockData.

Local Open Scope string_scope.

(** The six objects of [mock_listings], named by their [listingId].  (The
  description of A001 has a non-breaking hyphen in the source, written here
  as an ASCII hyphen; no tool reads a description.) *)
Definition T001 : Transport :=
mkTransport
  (mkListing "T001" "U123" "Toyota Camry 2018"
     "A comfortable midsize sedan." 80.0 "Kuala Lumpur" 4.7)
  "car" "Toyota" "Camry" 2018.

Definition T002 : Transport :=
mkTransport
  (mkListing "T002" "U124" "Honda City 2019"
     "Compact sedan with great fuel economy." 70.0 "Kuala Lumpur" 4.5)
  "car" "Honda" "City" 2019.

Definition A001 : Accommodation :=
mkAccommodation
  (mkListing "A001" "U456" "Cozy Apartment in KL"
     "A modern one-bedroom apartment close to downtown." 150.0
     "Kuala Lumpur" 4.6)
  "Apartment" 2.

Definition A002 : Accommodation :=
mkAccommodation
  (mkListing "A002" "U457" "Family Home in Penang"
     "A spacious house suitable for families." 200.0 "Penang" 4.8)
  "House" 6.

Definition I001 : Item :=
mkItem
  (mkListing "I001" "U789" "Canon DSLR Camera"
     "A professional DSLR camera for rent." 60.0 "Kuala Lumpur" 4.8)
  "Electronics".

Definition I002 : Item :=
mkItem
  (mkListing "I002" "U790" "Power Drill"
     "Heavy duty power drill for DIY projects." 20.0 "Kuala Lumpur" 4.3)
  "Tools".

Definition mock_listings : list Object :=
[ IsTransport T001; IsTransport T002;
  IsAccommodation A001; IsAccommodation A002;
  IsItem I001; IsItem I002 ].

End MockData.

(** [[l for l in db if isinstance(l, Transport)]] *)
Fixpoint get_transport_listings (db : list Object) : list Transport :=
  match db with
  | [] => []
  | IsTransport t :: db' => t :: get_transport_listings db'
  | _ :: db' => get_transport_listings db'
  end.

Fixpoint get_accommodation_listings (db : list Object) : list Accommodation :=
  match db with
  | [] => []
  | IsAccommodation a :: db' => a :: get_accommodation_listings db'
  | _ :: db' => get_accommodation_listings db'
  end.

Fixpoint get_item_listings (db : list Object) : list Item :=
  match db with
  | [] => []
  | IsItem i :: db' => i :: get_item_listings db'
  | _ :: db' => get_item_listings db'
  end.

(** ** The value returned by a search tool *)

(** The dictionary with keys [listingId], [title], [location], [basePrice] and
    [reason]. *)
Record Summary : Type := mkSummary {
  s_listingId : string;
  s_title : string;
  s_location : string;
  s_basePrice : float;
  s_reason : string
}.

(** Either that dictionary, or the one with keys [error] and [suggestions]. *)
Inductive Response : Type :=
| Best (b : Summary)
| NoMatch (error : string) (suggestions : list Summary).

(** [if v: candidates = [l for l in candidates if p]], where [truth] is the
    truth value of a supplied argument ([None] is false). *)
Definition keep_if {V A : Type} (truth : V -> bool) (arg : option V)
    (p : V -> A -> bool) (candidates : list A) : list A :=
  match arg with
  | Some v => if truth v then filter (p v) candidates else candidates
  | None => candidates
  end.

(** [arg is not None] *)
Definition is_not_None {V : Type} (_ : V) : bool := true.

(** ** [transport_agent.py] *)

Section TransportAgent.

Local Open Scope string_scope.
Local Open Scope Q_scope.

(** Lines 49-62: the candidates left by the filters. *)
Definition transport_candidates (db : list Object)
    (location_ : option string) (max_price : option float)
    (vehicle_type make_ model_ : option string) (year_ : option Z)
  : list Transport :=
  let candidates := get_transport_listings db in
  let candidates :=
    keep_if str_bool location_
      (fun v (l : Transport) => str_in (lower v) (lower (location l)))
      candidates in
  let candidates :=
    keep_if is_not_None max_price
      (fun v (l : Transport) => Qle_bool (basePrice l) v) candidates in
  let candidates :=
    keep_if str_bool vehicle_type
      (fun v (l : Transport) => str_in (lower v) (lower (vehicleType l)))
      candidates in
  let candidates :=
    keep_if str_bool make_
      (fun v (l : Transport) => str_in (lower v) (lower (make l)))
      candidates in
  let candidates :=
    keep_if str_bool model_
      (fun v (l : Transport) => str_in (lower v) (lower (model l)))
      candidates in
  let candidates :=
    keep_if int_bool year_
      (fun v (l : Transport) => Z.eqb (year l) v) candidates in
  candidates.

Definition search_transport_listings (db : list Object)
    (location_ : option string) (max_price : option float)
    (vehicle_type make_ model_ : option string) (year_ : option Z)
  : result Response :=
  let candidates :=
    transport_candidates db location_ max_price vehicle_type make_ model_
      year_ in
  if negb (list_bool candidates) then
    let all_listings := get_transport_listings db in
    let suggestions_sorted :=
      sorted
        (fun l : Transport =>
           (- (averageRating l * 2.0 - basePrice l / 100.0), basePrice l))
        all_listings in
    let suggestions := firstn 3 suggestions_sorted in
    suggestion_data <-
      (if list_bool suggestions then
         max_rating_all <-
           py_max (map (fun l : Transport => averageRating l) all_listings) ;;
         min_price_all <-
           py_min (map (fun l : Transport => basePrice l) all_listings) ;;
         Ok (map
               (fun s : Transport =>
                  let tag :=
                    if andb (Qge_bool (averageRating s) 4.5)
                            (Qge_bool (averageRating s)
                                      (0.99 * max_rating_all))
                    then "High Rating"
                    else if Qle_bool (basePrice s) (min_price_all * 1.01)
                         then "Cheap"
                         else "Related" in
                  mkSummary (listingId s) (title s) (location s)
                    (basePrice s) tag)
               suggestions)
       else Ok []) ;;
    Ok (NoMatch "No matching transport listings found." suggestion_data)
  else
    let best : option Transport := None in
    let best_score := NegInf in
    max_rating <-
      py_max (map (fun l : Transport => averageRating l) candidates) ;;
    let '(best, best_score) :=
      fold_left
        (fun (st : option Transport * efloat) (listing : Transport) =>
           let '(best, best_score) := st in
           let score := averageRating listing * 2.0
                        - basePrice listing / 100.0 in
           if gt_efloat score best_score then (Some listing, Fin score)
           else (best, best_score))
        candidates (best, best_score) in
    reason <-
      match best with
      | Some b =>
          if andb (Qge_bool (averageRating b) 4.5)
                  (Qge_bool (averageRating b) (0.99 * max_rating))
          then Ok "High Rating"
          else
            min_price <-
              py_min (map (fun l : Transport => basePrice l) candidates) ;;
            Ok (if Qle_bool (basePrice b) (min_price * 1.01)
                then "Cheap" else "Best Match")
      | None => Ok "Best Match"
      end ;;
    match best with
    | Some b =>
        Ok (Best (mkSummary (listingId b) (title b) (location b)
                    (basePrice b) reason))
    | None => Raise AttributeError
    end.

End TransportAgent.

(** ** [accommodation_agent.py] *)

Section AccommodationAgent.

Local Open Scope string_scope.
Local Open Scope Q_scope.

(** Lines 41-49. *)
Definition accommodation_candidates (db : list Object)
    (location_ : option string) (max_price : option float)
    (property_type : option string) (num_guests : option Z)
  : list Accommodation :=
  let candidates := get_accommodation_listings db in
  let candidates :=
    keep_if str_bool location_
      (fun v (l : Accommodation) => str_in (lower v) (lower (location l)))
      candidates in
  let candidates :=
    keep_if is_not_None max_price
      (fun v (l : Accommodation) => Qle_bool (basePrice l) v) candidates in
  let candidates :=
    keep_if str_bool property_type
      (fun v (l : Accommodation) =>
         str_in (lower v) (lower (propertyType l)))
      candidates in
  let candidates :=
    keep_if int_bool num_guests
      (fun v (l : Accommodation) => Z.geb (numGuests l) v) candidates in
  candidates.

Definition search_accommodation_listings (db : list Object)
    (location_ : option string) (max_price : option float)
    (property_type : option string) (num_guests : option Z)
  : result Response :=
  let candidates :=
    accommodation_candidates db location_ max_price property_type
      num_guests in
  if negb (list_bool candidates) then
    let all_listings := get_accommodation_listings db in
    let suggestions_sorted :=
      sorted
        (fun l : Accommodation =>
           (- (averageRating l * 2.0 - basePrice l / 100.0), basePrice l))
        all_listings in
    let suggestions := firstn 3 suggestions_sorted in
    suggestion_data <-
      (if list_bool suggestions then
         max_rating_all <-
           py_max
             (map (fun l : Accommodation => averageRating l) all_listings) ;;
         min_price_all <-
           py_min (map (fun l : Accommodation => basePrice l) all_listings) ;;
         Ok (map
               (fun s : Accommodation =>
                  let tag :=
                    if andb (Qge_bool (averageRating s) 4.5)
                            (Qge_bool (averageRating s)
                                      (0.99 * max_rating_all))
                    then "High Rating"
                    else if Qle_bool (basePrice s) (min_price_all * 1.01)
                         then "Cheap"
                         else "Related" in
                  mkSummary (listingId s) (title s) (location s)
                    (basePrice s) tag)
               suggestions)
       else Ok []) ;;
    Ok (NoMatch "No matching accommodation listings found." suggestion_data)
  else
    let best : option Accommodation := None in
    let best_score := NegInf in
    max_rating <-
      py_max (map (fun l : Accommodation => averageRating l) candidates) ;;
    let '(best, best_score) :=
      fold_left
        (fun (st : option Accommodation * efloat) (listing : Accommodation) =>
           let '(best, best_score) := st in
           let score := averageRating listing * 2.0
                        - basePrice listing / 100.0 in
           if gt_efloat score best_score then (Some listing, Fin score)
           else (best, best_score))
        candidates (best, best_score) in
    reason <-
      match best with
      | Some b =>
          if andb (Qge_bool (averageRating b) 4.5)
                  (Qge_bool (averageRating b) (0.99 * max_rating))
          then Ok "High Rating"
          else
            min_price <-
              py_min
                (map (fun l : Accommodation => basePrice l) candidates) ;;
            Ok (if Qle_bool (basePrice b) (min_price * 1.01)
                then "Cheap" else "Best Match")
      | None => Ok "Best Match"
      end ;;
    match best with
    | Some b =>
        Ok (Best (mkSummary (listingId b) (title b) (location b)
                    (basePrice b) reason))
    | None => Raise AttributeError
    end.

End AccommodationAgent.

(** ** [item_agent.py] *)

Section ItemAgent.

Local Open Scope string_scope.
Local Open Scope Q_scope.

(** Lines 36-42. *)
Definition item_candidates (db : list Object)
    (location_ : option string) (max_price : option float)
    (item_category : option string)
  : list Item :=
  let candidates := get_item_listings db in
  let candidates :=
    keep_if str_bool location_
      (fun v (l : Item) => str_in (lower v) (lower (location l)))
      candidates in
  let candidates :=
    keep_if is_not_None max_price
      (fun v (l : Item) => Qle_bool (basePrice l) v) candidates in
  let candidates :=
    keep_if str_bool item_category
      (fun v (l : Item) => str_in (lower v) (lower (itemCategory l)))
      candidates in
  candidates.

Definition search_item_listings (db : list Object)
    (location_ : option string) (max_price : option float)
    (item_category : option string)
  : result Response :=
  let candidates := item_candidates db location_ max_price item_category in
  if negb (list_bool candidates) then
    let all_listings := get_item_listings db in
    let suggestions_sorted :=
      sorted
        (fun l : Item =>
           (- (averageRating l * 2.0 - basePrice l / 100.0), basePrice l))
        all_listings in
    let suggestions := firstn 3 suggestions_sorted in
    suggestion_data <-
      (if list_bool suggestions then
         max_rating_all <-
           py_max (map (fun l : Item => averageRating l) all_listings) ;;
         min_price_all <-
           py_min (map (fun l : Item => basePrice l) all_listings) ;;
         Ok (map
               (fun s : Item =>
                  let tag :=
                    if andb (Qge_bool (averageRating s) 4.5)
                            (Qge_bool (averageRating s)
                                      (0.99 * max_rating_all))
                    then "High Rating"
                    else if Qle_bool (basePrice s) (min_price_all * 1.01)
                         then "Cheap"
                         else "Related" in
                  mkSummary (listingId s) (title s) (location s)
                    (basePrice s) tag)
               suggestions)
       else Ok []) ;;
    Ok (NoMatch "No matching item listings found." suggestion_data)
  else
    let best : option Item := None in
    let best_score := NegInf in
    max_rating <-
      py_max (map (fun l : Item => averageRating l) candidates) ;;
    let '(best, best_score) :=
      fold_left
        (fun (st : option Item * efloat) (listing : Item) =>
           let '(best, best_score) := st in
           let score := averageRating listing * 2.0
                        - basePrice listing / 100.0 in
           if gt_efloat score best_score then (Some listing, Fin score)
           else (best, best_score))
        candidates (best, best_score) in
    reason <-
      match best with
      | Some b =>
          if andb (Qge_bool (averageRating b) 4.5)
                  (Qge_bool (averageRating b) (0.99 * max_rating))
          then Ok "High Rating"
          else
            min_price <-
              py_min (map (fun l : Item => basePrice l) candidates) ;;
            Ok (if Qle_bool (basePrice b) (min_price * 1.01)
                then "Cheap" else "Best Match")
      | None => Ok "Best Match"
      end ;;
    match best with
    | Some b =>
        Ok (Best (mkSummary (listingId b) (title b) (location b)
                    (basePrice b) reason))
    | None => Raise AttributeError
    end.

End ItemAgent.

(** ** The tool calls

    The three tools behind one type, so that a property of all three is one
    statement: a call names the tool and carries its arguments. *)

Inductive Call : Type :=
| SearchTransport (location_ : option string) (max_price : option float)
    (vehicle_type make_ model_ : option string) (year_ : option Z)
| SearchAccommodation (location_ : option string) (max_price : option float)
    (property_type : option string) (num_guests : option Z)
| SearchItem (location_ : option string) (max_price : option float)
    (item_category : option string).

Definition run (db : list Object) (c : Call) : result Response :=
  match c with
  | SearchTransport l p vt mk md y => search_transport_listings db l p vt mk md y
  | SearchAccommodation l p pt n => search_accommodation_listings db l p pt n
  | SearchItem l p ic => search_item_listings db l p ic
  end.

(** The unfiltered collection of the call's category and the candidates its
    filters leave, as base listings. *)
Definition collection (db : list Object) (c : Call) : list Listing :=
  match c with
  | SearchTransport _ _ _ _ _ _ => map Transport_base (get_transport_listings db)
  | SearchAccommodation _ _ _ _ =>
      map Accommodation_base (get_accommodation_listings db)
  | SearchItem _ _ _ => map Item_base (get_item_listings db)
  end.

Definition candidates (db : list Object) (c : Call) : list Listing :=
  match c with
  | SearchTransport l p vt mk md y =>
      map Transport_base (transport_candidates db l p vt mk md y)
  | SearchAccommodation l p pt n =>
      map Accommodation_base (accommodation_candidates db l p pt n)
  | SearchItem l p ic => map Item_base (item_candidates db l p ic)
  end.

Definition max_price_of (c : Call) : option float :=
  match c with
  | SearchTransport _ p _ _ _ _ => p
  | SearchAccommodation _ p _ _ => p
  | SearchItem _ p _ => p
  end.

(** ** The routine the three tools repeat

    Lines 64-123 of [transport_agent.py], which [accommodation_agent.py] and
    [item_agent.py] repeat, written once over any listing type [A] seen
    through its base fields.  [search_transport_listings_rank] and its two
    siblings show that each tool is this routine. *)

Section Rank.

Variable A : Type.
Variable base : A -> Listing.

Local Open Scope string_scope.
Local Open Scope Q_scope.

Definition best_step (st : option A * efloat) (listing : A)
  : option A * efloat :=
  let '(best, best_score) := st in
  let score := averageRating (base listing) * 2.0
               - basePrice (base listing) / 100.0 in
  if gt_efloat score best_score then (Some listing, Fin score)
  else (best, best_score).

Definition tag_of (default : string) (max_rating min_price : Q) (s : A)
  : string :=
  if andb (Qge_bool (averageRating (base s)) 4.5)
          (Qge_bool (averageRating (base s)) (0.99 * max_rating))
  then "High Rating"
  else if Qle_bool (basePrice (base s)) (min_price * 1.01)
       then "Cheap"
       else default.

Definition summary (s : A) (reason : string) : Summary :=
  mkSummary (listingId (base s)) (title (base s)) (location (base s))
    (basePrice (base s)) reason.

Definition sort_key (l : A) : Q * Q :=
  (- (averageRating (base l) * 2.0 - basePrice (base l) / 100.0),
   basePrice (base l)).

Definition rank (error : string) (all_listings candidates : list A)
  : result Response :=
  if negb (list_bool candidates) then
    let suggestions := firstn 3 (sorted sort_key all_listings) in
    suggestion_data <-
      (if list_bool suggestions then
         max_rating_all <-
           py_max (map (fun l => averageRating (base l)) all_listings) ;;
         min_price_all <-
           py_min (map (fun l => basePrice (base l)) all_listings) ;;
         Ok (map
               (fun s =>
                  summary s (tag_of "Related" max_rating_all min_price_all s))
               suggestions)
       else Ok []) ;;
    Ok (NoMatch error suggestion_data)
  else
    max_rating <- py_max (map (fun l => averageRating (base l)) candidates) ;;
    let '(best, best_score) := fold_left best_step candidates (None, NegInf) in
    reason <-
      match best with
      | Some b =>
          if andb (Qge_bool (averageRating (base b)) 4.5)
                  (Qge_bool (averageRating (base b)) (0.99 * max_rating))
          then Ok "High Rating"
          else
            min_price <-
              py_min (map (fun l => basePrice (base l)) candidates) ;;
            Ok (if Qle_bool (basePrice (base b)) (min_price * 1.01)
                then "Cheap" else "Best Match")
      | None => Ok "Best Match"
      end ;;
    match best with
    | Some b => Ok (Best (summary b reason))
    | None => Raise AttributeError
    end.

End Rank.

Definition error_of (c : Call) : string :=
  match c with
  | SearchTransport _ _ _ _ _ _ => "No matching transport listings found."
  | SearchAccommodation _ _ _ _ => "No matching accommodation listings found."
  | SearchItem _ _ _ => "No matching item listings found."
  end.

(** A tool call as a step on the module state.  The tools only read
    [mock_listings]: the comprehensions and [sorted] build new lists and no
    attribute of a listing is assigned, so the state after the call is the
    state before it. *)
Definition invoke (c : Call) (db : list Object)
  : result Response * list Object :=
  (run db c, db).

(** ** Vocabulary of the properties *)

Section Vocabulary.

Local Open Scope string_scope.
Local Open Scope Q_scope.

(** The score of the specification. *)
Definition score (l : Listing) : Q :=
  averageRating l * 2.0 - basePrice l / 100.0.

(** [s] is the returned dictionary for listing [l] with tag [reason]. *)
Definition describes (s : Summary) (l : Listing) (reason : string) : Prop :=
  s = mkSummary (listingId l) (title l) (location l) (basePrice l) reason.

(** [best] is the first listing of [cands] with the maximal score: every
    listing before it scores strictly less, every listing after it scores
    at most as much. *)
Definition first_best (cands : list Listing) (best : Listing) : Prop :=
  exists pre post,
    cands = (pre ++ best :: post)%list
    /\ (forall c, In c pre -> score c < score best)
    /\ (forall c, In c post -> score c <= score best).

(** Descending score, ties by ascending price. *)
Definition ranks_before (a b : Listing) : Prop :=
  score b < score a \/ (score a == score b /\ basePrice a <= basePrice b).

Definition is_max (M : Q) (xs : list Q) : Prop :=
  In M xs /\ forall x, In x xs -> x <= M.

Definition is_min (m : Q) (xs : list Q) : Prop :=
  In m xs /\ forall x, In x xs -> m <= x.

Definition high_rating (l : Listing) (M : Q) : Prop :=
  4.5 <= averageRating l /\ 0.99 * M <= averageRating l.

Definition cheap (l : Listing) (m : Q) : Prop :=
  basePrice l <= 1.01 * m.

(** The decision order of the reason tag: exactly one of the three cases
    holds, and it names the tag. *)
Definition tag_rule (default : string) (l : Listing) (M m : Q)
    (tag : string) : Prop :=
  (high_rating l M /\ tag = "High Rating")
  \/ (~ high_rating l M /\ cheap l m /\ tag = "Cheap")
  \/ (~ high_rating l M /\ ~ cheap l m /\ tag = default).

(** [s] describes a listing of [scope] with the tag that the decision order
    gives it, [M] and [m] being the maximal rating and the minimal price
    over [scope]. *)
Definition tagged_over (default : string) (scope : list Listing)
  (s : Summary) : Prop :=
exists l tag M m,
  In l scope /\ describes s l tag
  /\ is_max M (map averageRating scope)
  /\ is_min m (map basePrice scope)
  /\ tag_rule default l M m tag.

(** Two results that differ at most in the text of the error message. *)
Definition same_but_error (r1 r2 : result Response) : Prop :=
  match r1, r2 with
  | Ok (Best a), Ok (Best b) => a = b
  | Ok (NoMatch _ s1), Ok (NoMatch _ s2) => s1 = s2
  | Raise e1, Raise e2 => e1 = e2
  | _, _ => False
  end.

(** [b] sets every criterion that [a] sets, to the same value. *)
Definition sets_more {V : Type} (a b : option V) : Prop :=
  a = None \/ a = b.

Definition extends (c c' : Call) : Prop :=
  match c, c' with
  | SearchTransport l p vt mk md y, SearchTransport l' p' vt' mk' md' y' =>
      sets_more l l' /\ sets_more p p' /\ sets_more vt vt'
      /\ sets_more mk mk' /\ sets_more md md' /\ sets_more y y'
  | SearchAccommodation l p pt n, SearchAccommodation l' p' pt' n' =>
      sets_more l l' /\ sets_more p p' /\ sets_more pt pt'
      /\ sets_more n n'
  | SearchItem l p ic, SearchItem l' p' ic' =>
      sets_more l l' /\ sets_more p p' /\ sets_more ic ic'
  | _, _ => False
  end.

(** The call with every criterion left unset. *)
Definition unset (c : Call) : Call :=
  match c with
  | SearchTransport _ _ _ _ _ _ =>
      SearchTransport None None None None None None
  | SearchAccommodation _ _ _ _ => SearchAccommodation None None None None
  | SearchItem _ _ _ => SearchItem None None None
  end.

End Vocabulary.

(** In the order of [sorted], [a] may stand before [b]: the key of [b] is
    not below the key of [a]. *)
Definition key_le {A : Type} (key : A -> Q * Q) (a b : A) : Prop :=
  tuple_lt (key b) (key a) = false.

(** The two databases give the tool of the call the same listing
    collection. *)
Definition same_collection (c : Call) (db db' : list Object) : Prop :=
  match c with
  | SearchTransport _ _ _ _ _ _ =>
      get_transport_listings db = get_transport_listings db'
  | SearchAccommodation _ _ _ _ =>
      get_accommodation_listings db = get_accommodation_listings db'
  | SearchItem _ _ _ => get_item_listings db = get_item_listings db'
  end.

(** The filters on the criteria that the three tools share, on base
    listings. *)
Definition shared_candidates (location_ : option string)
    (max_price : option float) (ls : list Listing) : list Listing :=
  keep_if is_not_None max_price (fun v l => Qle_bool (basePrice l) v)
    (keep_if str_bool location_
       (fun v l => str_in (lower v) (lower (location l))) ls).

(** The two example calls of the specification, and the same location
    without a price ceiling. *)
Definition kuala_lumpur_75 : Call :=
  SearchTransport (Some "Kuala Lumpur"%string) (Some 75%Q) None None None None.

Definition kuala_lumpur : Call :=
  SearchTransport (Some "Kuala Lumpur"%string) None None None None None.

Definition penang_50 : Call :=
  SearchAccommodation (Some "Penang"%string) (Some 50%Q) None None.

(** Two transport listings with the same score 7: the dearer one first. *)
Definition tie_db : list Object :=
  [ IsTransport
      (mkTransport
         (mkListing "X1" "U1" "Van" "" 200.0 "Ipoh" 4.5) "van" "Ford" "Transit"
         2020);
    IsTransport
      (mkTransport
         (mkListing "X2" "U2" "Bike" "" 100.0 "Ipoh" 4.0) "motorcycle" "Honda"
         "Wave" 2021) ].

(** A database in which the three categories hold the same base listings. *)
Definition same_base_db (ls : list Listing) : list Object :=
  (map (fun l => IsTransport (mkTransport l "car" "Honda" "City" 2019)) ls
   ++ map (fun l => IsAccommodation (mkAccommodation l "House" 6)) ls
   ++ map (fun l => IsItem (mkItem l "Tools")) ls)%list.

(** [l1] is [l2] with some elements removed. *)
Inductive sublist {A : Type} : list A -> list A -> Prop :=
| sublist_nil : sublist [] []
| sublist_skip x l1 l2 : sublist l1 l2 -> sublist l1 (x :: l2)
| sublist_keep x l1 l2 : sublist l1 l2 -> sublist (x :: l1) (x :: l2).

(** ** Vocabulary of the filters *)

(** The test that [keep_if] applies to a listing: true when the argument is
    [None] or false. *)
Definition kept {V A : Type} (truth : V -> bool) (arg : option V)
    (p : V -> A -> bool) (x : A) : bool :=
  match arg with
  | Some v => if truth v then p v x else true
  | None => true
  end.

(** [sub] occurs in [s]. *)
Definition occurs (sub s : string) : Prop :=
  exists pre post, s = (pre ++ sub ++ post)%string.

(** A text criterion admits a field: it is unset or empty, or it occurs in
    the field, letter case aside. *)
Definition text_ok (crit : option string) (field : string) : Prop :=
  match crit with
  | None => True
  | Some v => v = EmptyString \/ occurs (lower v) (lower field)
  end.

(** A price ceiling admits a price: it is unset, or the price is at most the
    ceiling. *)
Definition ceiling_ok (max_price : option float) (price : float) : Prop :=
  match max_price with
  | None => True
  | Some m => (price <= m)%Q
  end.

(** A year criterion admits a year: it is unset or zero, or it is the year. *)
Definition year_ok (crit : option Z) (field : Z) : Prop :=
  match crit with
  | None => True
  | Some v => v = 0%Z \/ field = v
  end.

(** A guest criterion admits a capacity: it is unset or zero, or the capacity
    is at least the criterion. *)
Definition guests_ok (crit : option Z) (field : Z) : Prop :=
  match crit with
  | None => True
  | Some v => v = 0%Z \/ (v <= field)%Z
  end.

Definition location_of (c : Call) : option string :=
  match c with
  | SearchTransport l _ _ _ _ _ => l
  | SearchAccommodation l _ _ _ => l
  | SearchItem l _ _ => l
  end.

(** A criterion that is false as a truth value, replaced by [None].  The
    price ceiling is not among them: it is tested with [is not None]. *)
Definition unset_empty (o : option string) : option string :=
  match o with
  | Some EmptyString => None
  | _ => o
  end.

Definition unset_zero (o : option Z) : option Z :=
  match o with
  | Some 0%Z => None
  | _ => o
  end.

Definition normalize (c : Call) : Call :=
  match c with
  | SearchTransport l p vt mk md y =>
      SearchTransport (unset_empty l) p (unset_empty vt) (unset_empty mk)
        (unset_empty md) (unset_zero y)
  | SearchAccommodation l p pt n =>
      SearchAccommodation (unset_empty l) p (unset_empty pt) (unset_zero n)
  | SearchItem l p ic => SearchItem (unset_empty l) p (unset_empty ic)
  end.

(** Two text criteria that differ at most in letter case. *)
Definition same_text (a b : option string) : Prop :=
  match a, b with
  | Some x, Some y => lower x = lower y
  | None, None => True
  | _, _ => False
  end.

Definition same_but_case (c c' : Call) : Prop :=
  match c, c' with
  | SearchTransport l p vt mk md y, SearchTransport l' p' vt' mk' md' y' =>
      same_text l l' /\ p = p' /\ same_text vt vt' /\ same_text mk mk'
      /\ same_text md md' /\ y = y'
  | SearchAccommodation l p pt n, SearchAccommodation l' p' pt' n' =>
      same_text l l' /\ p = p' /\ same_text pt pt' /\ n = n'
  | SearchItem l p ic, SearchItem l' p' ic' =>
      same_text l l' /\ p = p' /\ same_text ic ic'
  | _, _ => False
  end.

(** Two calls of the same tool. *)
Definition same_tool (c c' : Call) : Prop :=
  match c, c' with
  | SearchTransport _ _ _ _ _ _, SearchTransport _ _ _ _ _ _ => True
  | SearchAccommodation _ _ _ _, SearchAccommodation _ _ _ _ => True
  | SearchItem _ _ _, SearchItem _ _ _ => True
  | _, _ => False
  end.

(** ** Each tool is the common routine *)

Lemma search_transport_listings_rank db l p vt mk md y :
  search_transport_listings db l p vt mk md y
  = rank Transport_base "No matching transport listings found."
      (get_transport_listings db) (transport_candidates db l p vt mk md y).
Proof. reflexivity. Qed.

Lemma search_accommodation_listings_rank db l p pt n :
  search_accommodation_listings db l p pt n
  = rank Accommodation_base "No matching accommodation listings found."
      (get_accommodation_listings db) (accommodation_candidates db l p pt n).
Proof. reflexivity. Qed.

Lemma search_item_listings_rank db l p ic :
  search_item_listings db l p ic
  = rank Item_base "No matching item listings found."
      (get_item_listings db) (item_candidates db l p ic).
Proof. reflexivity. Qed.

(** ** Comparisons on floats *)

Lemma Qlt_bool_iff a b : Qlt_bool a b = true <-> (a < b)%Q.
Proof.
  unfold Qlt_bool. rewrite negb_true_iff, <- not_true_iff_false, Qle_bool_iff.
  split; [apply Qnot_le_lt | apply Qlt_not_le].
Qed.

Lemma Qlt_bool_false a b : Qlt_bool a b = false <-> (b <= a)%Q.
Proof.
  unfold Qlt_bool. rewrite negb_false_iff. apply Qle_bool_iff.
Qed.

Lemma Qgt_bool_iff a b : Qgt_bool a b = true <-> (b < a)%Q.
Proof. apply Qlt_bool_iff. Qed.

Lemma Qgt_bool_false a b : Qgt_bool a b = false <-> (a <= b)%Q.
Proof. apply Qlt_bool_false. Qed.

Lemma Qge_bool_iff a b : Qge_bool a b = true <-> (b <= a)%Q.
Proof. apply Qle_bool_iff. Qed.

Lemma Qle_bool_false a b : Qle_bool a b = false <-> (b < a)%Q.
Proof.
  rewrite <- not_true_iff_false, Qle_bool_iff.
  split; [apply Qnot_le_lt | apply Qlt_not_le].
Qed.

Lemma Qeq_bool_false a b : Qeq_bool a b = false <-> ~ (a == b)%Q.
Proof. rewrite <- not_true_iff_false, Qeq_bool_iff. tauto. Qed.

(** ** [max] and [min] *)

Lemma fold_max_spec xs : forall x,
  let M := fold_left (fun m y => if Qgt_bool y m then y else m) xs x in
  In M (x :: xs) /\ forall y, In y (x :: xs) -> (y <= M)%Q.
Proof.
  induction xs as [|z xs IH]; intros x; cbn zeta.
  - simpl. split; [now left|]. intros y [<-|[]]. apply Qle_refl.
  - simpl fold_left.
    destruct (Qgt_bool z x) eqn:E.
    + apply Qgt_bool_iff in E. destruct (IH z) as [Hin Hle]. split.
      * right. exact Hin.
      * intros y [<-|Hy].
        -- apply Qle_trans with z; [now apply Qlt_le_weak|]. apply Hle. now left.
        -- apply Hle. exact Hy.
    + apply Qgt_bool_false in E. destruct (IH x) as [Hin Hle]. split.
      * destruct Hin as [Hin|Hin]; [now left | right; now right].
      * intros y [<-|[<-|Hy]].
        -- apply Hle. now left.
        -- apply Qle_trans with x; [exact E|]. apply Hle. now left.
        -- apply Hle. now right.
Qed.

Lemma fold_min_spec xs : forall x,
  let m := fold_left (fun m y => if Qlt_bool y m then y else m) xs x in
  In m (x :: xs) /\ forall y, In y (x :: xs) -> (m <= y)%Q.
Proof.
  induction xs as [|z xs IH]; intros x; cbn zeta.
  - simpl. split; [now left|]. intros y [<-|[]]. apply Qle_refl.
  - simpl fold_left.
    destruct (Qlt_bool z x) eqn:E.
    + apply Qlt_bool_iff in E. destruct (IH z) as [Hin Hle]. split.
      * right. exact Hin.
      * intros y [<-|Hy].
        -- apply Qle_trans with z; [|now apply Qlt_le_weak]. apply Hle. now left.
        -- apply Hle. exact Hy.
    + apply Qlt_bool_false in E. destruct (IH x) as [Hin Hle]. split.
      * destruct Hin as [Hin|Hin]; [now left | right; now right].
      * intros y [<-|[<-|Hy]].
        -- apply Hle. now left.
        -- apply Qle_trans with x; [|exact E]. apply Hle. now left.
        -- apply Hle. now right.
Qed.

Lemma py_max_spec xs :
  xs <> [] -> exists M, py_max xs = Ok M /\ is_max M xs.
Proof.
  destruct xs as [|x xs]; [congruence|]. intros _.
  eexists. split; [reflexivity|]. apply fold_max_spec.
Qed.

Lemma py_min_spec xs :
  xs <> [] -> exists m, py_min xs = Ok m /\ is_min m xs.
Proof.
  destruct xs as [|x xs]; [congruence|]. intros _.
  eexists. split; [reflexivity|]. apply fold_min_spec.
Qed.

Lemma is_max_unique M M' xs : is_max M xs -> is_max M' xs -> (M == M')%Q.
Proof.
  intros [H1 H2] [H3 H4]. apply Qle_antisym; auto.
Qed.

Lemma is_min_unique m m' xs : is_min m xs -> is_min m' xs -> (m == m')%Q.
Proof.
  intros [H1 H2] [H3 H4]. apply Qle_antisym; auto.
Qed.

(** ** [sorted] *)

Section Sorted.

Variable A : Type.
Variable key : A -> Q * Q.

Lemma insort_perm x l : Permutation (insort key x l) (x :: l).
Proof.
  induction l as [|y l IH]; simpl; [reflexivity|].
  destruct (tuple_lt (key y) (key x)); [|reflexivity].
  rewrite IH. apply perm_swap.
Qed.

Lemma sorted_perm l : Permutation (sorted key l) l.
Proof.
  induction l as [|x l IH]; simpl; [constructor|].
  rewrite insort_perm. now constructor.
Qed.

Lemma sorted_length l : List.length (sorted key l) = List.length l.
Proof. apply Permutation_length, sorted_perm. Qed.

Hypothesis key_le_trans :
  forall a b c, key_le key a b -> key_le key b c -> key_le key a c.
Hypothesis key_lt_le :
  forall a b, tuple_lt (key a) (key b) = true -> key_le key a b.

Lemma insort_sorted x l :
  StronglySorted (key_le key) l -> StronglySorted (key_le key) (insort key x l).
Proof.
  induction 1 as [|y l Hs IH Hy]; simpl.
  - repeat constructor.
  - destruct (tuple_lt (key y) (key x)) eqn:E.
    + constructor; [exact IH|].
      apply Forall_forall. intros z Hz.
      apply (Permutation_in _ (insort_perm x l)) in Hz.
      destruct Hz as [<-|Hz].
      * now apply key_lt_le.
      * rewrite Forall_forall in Hy. now apply Hy.
    + constructor; [now constructor|].
      constructor; [exact E|].
      apply Forall_forall. intros z Hz. rewrite Forall_forall in Hy.
      apply key_le_trans with y; [exact E | now apply Hy].
Qed.

Lemma sorted_sorted l : StronglySorted (key_le key) (sorted key l).
Proof.
  induction l as [|x l IH]; simpl; [constructor | now apply insort_sorted].
Qed.

End Sorted.

Lemma insort_map (A B : Type) (f : A -> B) (key : B -> Q * Q) x l :
  insort key (f x) (map f l) = map f (insort (fun a => key (f a)) x l).
Proof.
  induction l as [|y l IH]; simpl; [reflexivity|].
  destruct (tuple_lt (key (f y)) (key (f x))); simpl; [now rewrite IH | reflexivity].
Qed.

Lemma sorted_map (A B : Type) (f : A -> B) (key : B -> Q * Q) l :
  sorted key (map f l) = map f (sorted (fun a => key (f a)) l).
Proof.
  induction l as [|x l IH]; simpl; [reflexivity|].
  now rewrite IH, insort_map.
Qed.

(** The order of [sorted] on the key of the routine is the order of the
    specification. *)
Lemma key_le_ranks_before (a b : Listing) :
  key_le (sort_key (fun l => l)) a b <-> ranks_before a b.
Proof.
  unfold key_le, tuple_lt, sort_key, ranks_before, score. simpl.
  set (sa := (averageRating a * 2.0 - basePrice a / 100.0)%Q).
  set (sb := (averageRating b * 2.0 - basePrice b / 100.0)%Q).
  destruct (Qeq_bool (- sb) (- sa)) eqn:E1.
  - apply Qeq_bool_iff in E1.
    destruct (Qeq_bool (basePrice b) (basePrice a)) eqn:E2.
    + apply Qeq_bool_iff in E2. split; [intros _|reflexivity].
      right. split; lra.
    + apply Qeq_bool_false in E2. rewrite Qlt_bool_false. split.
      * intros H. right. split; lra.
      * intros [H|[_ H]]; lra.
  - apply Qeq_bool_false in E1. rewrite Qlt_bool_false. split.
    + intros H. left.
      destruct (Qlt_le_dec sb sa) as [Hlt|Hle]; [exact Hlt|].
      exfalso. apply E1. lra.
    + intros [H|[H _]]; [lra|]. exfalso. apply E1. lra.
Qed.

Lemma ranks_before_trans a b c :
  ranks_before a b -> ranks_before b c -> ranks_before a c.
Proof.
  unfold ranks_before. intros [H1|[H1 H1']] [H2|[H2 H2']].
  - left. lra.
  - left. lra.
  - left. lra.
  - right. split; lra.
Qed.

Lemma ranks_before_total a b : ranks_before a b \/ ranks_before b a.
Proof.
  unfold ranks_before.
  destruct (Qlt_le_dec (score b) (score a)) as [H|H]; [now left; left|].
  destruct (Qlt_le_dec (score a) (score b)) as [H'|H']; [now right; left|].
  destruct (Qlt_le_dec (basePrice b) (basePrice a)) as [Hp|Hp].
  - right. right. split; lra.
  - left. right. split; lra.
Qed.

Lemma sorted_ranks_before (l : list Listing) :
  StronglySorted ranks_before (sorted (sort_key (fun l => l)) l).
Proof.
  assert (H : StronglySorted (key_le (sort_key (fun l => l)))
                (sorted (sort_key (fun l => l)) l)).
  { apply sorted_sorted.
    - intros a b c. rewrite !key_le_ranks_before. apply ranks_before_trans.
    - intros a b Hlt.
      destruct (ranks_before_total a b) as [H|H].
      + now apply key_le_ranks_before.
      + apply key_le_ranks_before in H. unfold key_le in H. congruence. }
  induction H as [|x xs Hs IH Hx]; constructor; [exact IH|].
  eapply Forall_impl; [|exact Hx]. intros y. apply key_le_ranks_before.
Qed.

(** ** The selection loop *)

Section Loop.

Variable A : Type.
Variable base : A -> Listing.

Local Open Scope Q_scope.

Lemma best_step_score (b : A) (x : A) :
  best_step base (Some b, Fin (score (base b))) x
  = if Qgt_bool (score (base x)) (score (base b))
    then (Some x, Fin (score (base x)))
    else (Some b, Fin (score (base b))).
Proof. reflexivity. Qed.

(** Once a listing is held, the loop ends on the first listing of what it
    has seen whose score is maximal. *)
Lemma best_loop_from (l : list A) : forall pre b post,
  (forall c, In c pre -> score (base c) < score (base b)) ->
  (forall c, In c post -> score (base c) <= score (base b)) ->
  exists pre' b' post',
    (pre ++ b :: post ++ l = pre' ++ b' :: post')%list
    /\ fold_left (best_step base) l (Some b, Fin (score (base b)))
       = (Some b', Fin (score (base b')))
    /\ (forall c, In c pre' -> score (base c) < score (base b'))
    /\ (forall c, In c post' -> score (base c) <= score (base b')).
Proof.
  induction l as [|x l IH]; intros pre b post Hpre Hpost.
  - exists pre, b, post. rewrite app_nil_r. auto.
  - cbn [fold_left]. rewrite best_step_score.
    destruct (Qgt_bool (score (base x)) (score (base b))) eqn:E.
    + apply Qgt_bool_iff in E.
      destruct (IH (pre ++ b :: post)%list x []) as (pre' & b' & post' & Heq & Hf & H1 & H2).
      * intros c Hc. apply in_app_or in Hc. destruct Hc as [Hc|[<-|Hc]].
        -- specialize (Hpre c Hc). lra.
        -- exact E.
        -- specialize (Hpost c Hc). lra.
      * intros c [].
      * exists pre', b', post'. split; [|auto].
        rewrite <- Heq. simpl. rewrite <- !app_assoc. reflexivity.
    + apply Qgt_bool_false in E.
      destruct (IH pre b (post ++ [x])%list) as (pre' & b' & post' & Heq & Hf & H1 & H2).
      * exact Hpre.
      * intros c Hc. apply in_app_or in Hc. destruct Hc as [Hc|[<-|[]]]; auto.
      * exists pre', b', post'. split; [|auto].
        rewrite <- Heq. rewrite <- !app_assoc. reflexivity.
Qed.

Lemma best_loop (cands : list A) :
  cands <> [] ->
  exists pre b post,
    cands = (pre ++ b :: post)%list
    /\ fold_left (best_step base) cands (None, NegInf)
       = (Some b, Fin (score (base b)))
    /\ (forall c, In c pre -> score (base c) < score (base b))
    /\ (forall c, In c post -> score (base c) <= score (base b)).
Proof.
  destruct cands as [|x l]; [congruence|]. intros _.
  destruct (@best_loop_from l [] x []) as (pre & b & post & Heq & Hf & H1 & H2).
  - intros c [].
  - intros c [].
  - exists pre, b, post. simpl in Heq. auto.
Qed.

Lemma best_step_map (b : option A) (s : efloat) (x : A) :
  best_step (fun l => l) (option_map base b, s) (base x)
  = (option_map base (fst (best_step base (b, s) x)),
     snd (best_step base (b, s) x)).
Proof.
  unfold best_step. destruct (gt_efloat _ s); reflexivity.
Qed.

Lemma best_loop_map (l : list A) : forall b s,
  fold_left (best_step (fun l => l)) (map base l) (option_map base b, s)
  = (option_map base (fst (fold_left (best_step base) l (b, s))),
     snd (fold_left (best_step base) l (b, s))).
Proof.
  induction l as [|x l IH]; intros b s; [reflexivity|].
  cbn [fold_left map]. rewrite best_step_map.
  destruct (best_step base (b, s) x) as [b' s']. apply IH.
Qed.

Lemma list_bool_map (B : Type) (f : A -> B) l :
  list_bool (map f l) = list_bool l.
Proof. destruct l; reflexivity. Qed.

(** The routine sees a listing only through its base fields. *)
Lemma rank_map error all_listings cands :
  rank base error all_listings cands
  = rank (fun l => l) error (map base all_listings) (map base cands).
Proof.
  unfold rank. rewrite list_bool_map.
  destruct (list_bool cands).
  - simpl negb. cbv iota. rewrite !map_map.
    destruct (py_max (map (fun l => averageRating (base l)) cands)) as [M|e];
      [|reflexivity].
    simpl bind.
    pose proof (best_loop_map cands None NegInf) as H. simpl option_map in H.
    rewrite H.
    destruct (fold_left (best_step base) cands (None, NegInf)) as [[b|] s];
      simpl; [|reflexivity].
    destruct (Qge_bool (averageRating (base b)) 4.5
              && Qge_bool (averageRating (base b)) (0.99 * M))%bool;
      [reflexivity|].
    simpl. destruct (py_min (map (fun l => basePrice (base l)) cands));
      reflexivity.
  - simpl negb. cbv iota.
    rewrite sorted_map, firstn_map, list_bool_map.
    change (fun a => sort_key (fun l => l) (base a)) with (sort_key base).
    destruct (list_bool (firstn 3 (sorted (sort_key base) all_listings)));
      [|reflexivity].
    rewrite !map_map.
    destruct (py_max (map (fun l => averageRating (base l)) all_listings));
      [|reflexivity].
    simpl bind.
    destruct (py_min (map (fun l => basePrice (base l)) all_listings));
      [|reflexivity].
    simpl bind. rewrite map_map. reflexivity.
Qed.

End Loop.

(** ** The reason tag *)

Section ReasonTag.

Local Open Scope Q_scope.
Local Open Scope string_scope.

Lemma high_rating_iff (l : Listing) M :
  (Qge_bool (averageRating l) 4.5 && Qge_bool (averageRating l) (0.99 * M))%bool
  = true <-> high_rating l M.
Proof.
  unfold high_rating. rewrite andb_true_iff, !Qge_bool_iff. tauto.
Qed.

Lemma cheap_iff (l : Listing) m :
  Qle_bool (basePrice l) (m * 1.01) = true <-> cheap l m.
Proof.
  unfold cheap. rewrite Qle_bool_iff. split; intros H; lra.
Qed.

Lemma tag_of_rule default (l : Listing) M m :
  tag_rule default l M m (tag_of (fun l => l) default M m l).
Proof.
  unfold tag_of, tag_rule.
  destruct (Qge_bool (averageRating l) 4.5
            && Qge_bool (averageRating l) (0.99 * M))%bool eqn:E.
  - left. split; [now apply high_rating_iff | reflexivity].
  - assert (Hh : ~ high_rating l M).
    { rewrite <- high_rating_iff. congruence. }
    destruct (Qle_bool (basePrice l) (m * 1.01)) eqn:E'.
    + right. left. repeat split; [exact Hh | now apply cheap_iff].
    + right. right. repeat split; [exact Hh|].
      rewrite <- cheap_iff. congruence.
Qed.

(** The tag does not depend on which representative of the maximum and of
    the minimum is taken. *)
Lemma tag_rule_compat default l M m M' m' tag :
  M == M' -> m == m' -> tag_rule default l M m tag -> tag_rule default l M' m' tag.
Proof.
  intros HM Hm. unfold tag_rule, high_rating, cheap.
  intros [[H1 H2]|[[H1 [H2 H3]]|[H1 [H2 H3]]]].
  - left. split; [|exact H2]. destruct H1. split; lra.
  - right. left. repeat split; [|lra|exact H3].
    intros [H4 H5]. apply H1. split; lra.
  - right. right. repeat split; [| |exact H3].
    + intros [H4 H5]. apply H1. split; lra.
    + intros H4. apply H2. lra.
Qed.

(** The three outcomes exclude one another. *)
Lemma tag_rule_functional default l M m t1 t2 :
  tag_rule default l M m t1 -> tag_rule default l M m t2 -> t1 = t2.
Proof.
  unfold tag_rule.
  intros [[H1 ->]|[[H1 [H2 ->]]|[H1 [H2 ->]]]]
         [[H3 ->]|[[H3 [H4 ->]]|[H3 [H4 ->]]]]; tauto.
Qed.

End ReasonTag.

(** ** The two branches of the routine *)

Section Branches.

Local Open Scope Q_scope.
Local Open Scope string_scope.

(** With candidates, the routine returns the first best candidate, tagged
    over the candidates. *)
Lemma rank_candidates error all_listings cands :
  cands <> [] ->
  exists best tag M m,
    rank (fun l => l) error all_listings cands
    = Ok (Best (summary (fun l => l) best tag))
    /\ first_best cands best
    /\ is_max M (map averageRating cands)
    /\ is_min m (map basePrice cands)
    /\ tag_rule "Best Match" best M m tag.
Proof.
  intros Hne. unfold rank.
  destruct cands as [|c0 cs] eqn:Ec; [congruence|]. rewrite <- Ec in *.
  assert (Hb : negb (list_bool cands) = false) by (rewrite Ec; reflexivity).
  rewrite Hb.
  destruct (@py_max_spec (map averageRating cands)) as (M0 & HM0 & HM0').
  { rewrite Ec. discriminate. }
  destruct (@py_min_spec (map basePrice cands)) as (m0 & Hm0 & Hm0').
  { rewrite Ec. discriminate. }
  change (map (fun l => averageRating l) cands) with (map averageRating cands).
  change (map (fun l => basePrice l) cands) with (map basePrice cands).
  rewrite HM0. cbn [bind].
  destruct (best_loop (fun l => l) Hne) as (pre & b & post & Heq & Hf & H1 & H2).
  rewrite Hf.
  exists b, (tag_of (fun l => l) "Best Match" M0 m0 b), M0, m0.
  repeat split; try (apply HM0' || apply Hm0').
  - unfold tag_of.
    destruct (Qge_bool (averageRating b) 4.5
              && Qge_bool (averageRating b) (0.99 * M0))%bool.
    + reflexivity.
    + rewrite Hm0. reflexivity.
  - exists pre, post. auto.
  - apply tag_of_rule.
Qed.

(** Without candidates, the routine returns the error with the first three
    listings of the sorted collection, tagged over the collection. *)
Lemma rank_no_candidates error all_listings :
  exists tag : Listing -> string,
    rank (fun l => l) error all_listings []
    = Ok (NoMatch error
            (map (fun s => summary (fun l => l) s (tag s))
               (firstn 3 (sorted (sort_key (fun l => l)) all_listings))))
    /\ forall s, In s all_listings ->
       exists M m,
         is_max M (map averageRating all_listings)
         /\ is_min m (map basePrice all_listings)
         /\ tag_rule "Related" s M m (tag s).
Proof.
  unfold rank. cbn [list_bool negb].
  destruct all_listings as [|a0 al] eqn:Ea.
  - exists (fun _ => "Related"). split; [reflexivity|]. intros s [].
  - rewrite <- Ea.
    destruct (@py_max_spec (map averageRating all_listings)) as (M0 & HM0 & HM0').
    { rewrite Ea. discriminate. }
    destruct (@py_min_spec (map basePrice all_listings)) as (m0 & Hm0 & Hm0').
    { rewrite Ea. discriminate. }
    exists (tag_of (fun l => l) "Related" M0 m0). split.
    + destruct (firstn 3 (sorted (sort_key (fun l => l)) all_listings)) eqn:Ef;
        [reflexivity|].
      cbn [list_bool].
      change (map (fun l => averageRating l) all_listings)
        with (map averageRating all_listings).
      change (map (fun l => basePrice l) all_listings)
        with (map basePrice all_listings).
      rewrite HM0, Hm0. reflexivity.
    + intros s _. exists M0, m0. repeat split; try (apply HM0' || apply Hm0').
      apply tag_of_rule.
Qed.

End Branches.

(** ** The filters *)

Section Filters.

Variable A : Type.

Lemma sublist_refl (l : list A) : sublist l l.
Proof. induction l; constructor; assumption. Qed.

Lemma sublist_trans (l1 l2 l3 : list A) :
  sublist l1 l2 -> sublist l2 l3 -> sublist l1 l3.
Proof.
  intros H12 H23. revert l1 H12.
  induction H23 as [|x l2 l3 H IH|x l2 l3 H IH]; intros l1 H12.
  - exact H12.
  - constructor. now apply IH.
  - inversion H12; subst.
    + constructor. now apply IH.
    + apply sublist_keep. now apply IH.
Qed.

Lemma sublist_In (l1 l2 : list A) x : sublist l1 l2 -> In x l1 -> In x l2.
Proof.
  induction 1 as [|y l1 l2 H IH|y l1 l2 H IH]; simpl; intuition.
Qed.

Lemma sublist_of_nil (l : list A) : sublist l [] -> l = [].
Proof. now inversion 1. Qed.

Lemma filter_sublist (p : A -> bool) l : sublist (filter p l) l.
Proof.
  induction l as [|x l IH]; simpl; [constructor|].
  destruct (p x); now constructor.
Qed.

Lemma filter_sublist_mono (p : A -> bool) l1 l2 :
  sublist l1 l2 -> sublist (filter p l1) (filter p l2).
Proof.
  induction 1 as [|x l1 l2 H IH|x l1 l2 H IH]; simpl.
  - constructor.
  - destruct (p x); [now constructor | exact IH].
  - destruct (p x); [now constructor | exact IH].
Qed.

Lemma firstn_sublist n (l : list A) : sublist (firstn n l) l.
Proof.
  revert n. induction l as [|x l IH]; intros [|n]; simpl.
  - constructor.
  - constructor.
  - constructor. apply (IH 0%nat).
  - apply sublist_keep, IH.
Qed.

Variable V : Type.
Variable truth : V -> bool.
Variable p : V -> A -> bool.

Lemma keep_if_sublist arg l : sublist (keep_if truth arg p l) l.
Proof.
  unfold keep_if. destruct arg as [v|]; [|apply sublist_refl].
  destruct (truth v); [apply filter_sublist | apply sublist_refl].
Qed.

Lemma keep_if_nil arg : keep_if truth arg p [] = [].
Proof. apply sublist_of_nil, keep_if_sublist. Qed.

(** Setting a criterion that was unset, on fewer listings, leaves fewer
    listings. *)
Lemma keep_if_mono a b l1 l2 :
  sets_more a b -> sublist l1 l2 ->
  sublist (keep_if truth b p l1) (keep_if truth a p l2).
Proof.
  intros [->| ->] H.
  - apply sublist_trans with l1; [apply keep_if_sublist | exact H].
  - unfold keep_if. destruct b as [v|]; [|exact H].
    destruct (truth v); [now apply filter_sublist_mono | exact H].
Qed.

Lemma keep_if_sound v l x :
  truth v = true -> In x (keep_if truth (Some v) p l) -> p v x = true.
Proof.
  unfold keep_if. intros ->. rewrite filter_In. tauto.
Qed.

End Filters.

Lemma sublist_map (A B : Type) (f : A -> B) l1 l2 :
  sublist l1 l2 -> sublist (map f l1) (map f l2).
Proof. induction 1; simpl; now constructor. Qed.

Lemma transport_candidates_sublist db l p vt mk md y :
  sublist (transport_candidates db l p vt mk md y) (get_transport_listings db).
Proof.
  unfold transport_candidates.
  repeat (eapply sublist_trans; [apply keep_if_sublist|]). apply sublist_refl.
Qed.

Lemma accommodation_candidates_sublist db l p pt n :
  sublist (accommodation_candidates db l p pt n)
    (get_accommodation_listings db).
Proof.
  unfold accommodation_candidates.
  repeat (eapply sublist_trans; [apply keep_if_sublist|]). apply sublist_refl.
Qed.

Lemma item_candidates_sublist db l p ic :
  sublist (item_candidates db l p ic) (get_item_listings db).
Proof.
  unfold item_candidates.
  repeat (eapply sublist_trans; [apply keep_if_sublist|]). apply sublist_refl.
Qed.

Lemma candidates_sublist db c : sublist (candidates db c) (collection db c).
Proof.
  destruct c; simpl; apply sublist_map.
  - apply transport_candidates_sublist.
  - apply accommodation_candidates_sublist.
  - apply item_candidates_sublist.
Qed.

Lemma candidates_mono db c c' :
  extends c c' -> sublist (candidates db c') (candidates db c).
Proof.
  destruct c, c'; simpl; try contradiction; intros H; apply sublist_map.
  - destruct H as (H1 & H2 & H3 & H4 & H5 & H6). unfold transport_candidates.
    repeat (apply keep_if_mono; [assumption|]). apply sublist_refl.
  - destruct H as (H1 & H2 & H3 & H4). unfold accommodation_candidates.
    repeat (apply keep_if_mono; [assumption|]). apply sublist_refl.
  - destruct H as (H1 & H2 & H3). unfold item_candidates.
    repeat (apply keep_if_mono; [assumption|]). apply sublist_refl.
Qed.

(** A price ceiling below every price leaves nothing. *)
Lemma price_filter_nil (A : Type) (base : A -> Listing) (m : Q) (l : list A) :
  (m < 0)%Q ->
  (forall x, In x l -> (0 <= basePrice (base x))%Q) ->
  keep_if is_not_None (Some m) (fun v x => Qle_bool (basePrice (base x)) v) l
  = [].
Proof.
  intros Hm Hl. unfold keep_if, is_not_None.
  induction l as [|x l IH]; simpl; [reflexivity|].
  destruct (Qle_bool (basePrice (base x)) m) eqn:E.
  - apply Qle_bool_iff in E. specialize (Hl x (or_introl eq_refl)). lra.
  - apply IH. intros y Hy. apply Hl. now right.
Qed.

Lemma negative_price_no_candidates db c m :
  (forall l, In l (collection db c) -> (0 <= basePrice l)%Q) ->
  max_price_of c = Some m -> (m < 0)%Q ->
  candidates db c = [].
Proof.
  intros Hpos Hc Hm.
  destruct c as [l p vt mk md y|l p pt n|l p ic]; simpl in Hc; subst p;
    simpl in *.
  - unfold transport_candidates.
    rewrite (@price_filter_nil _ Transport_base m); [now rewrite !keep_if_nil|exact Hm|].
    intros x Hx. apply Hpos, in_map.
    eapply sublist_In; [apply keep_if_sublist | exact Hx].
  - unfold accommodation_candidates.
    rewrite (@price_filter_nil _ Accommodation_base m); [now rewrite !keep_if_nil|exact Hm|].
    intros x Hx. apply Hpos, in_map.
    eapply sublist_In; [apply keep_if_sublist | exact Hx].
  - unfold item_candidates.
    rewrite (@price_filter_nil _ Item_base m); [now rewrite !keep_if_nil|exact Hm|].
    intros x Hx. apply Hpos, in_map.
    eapply sublist_In; [apply keep_if_sublist | exact Hx].
Qed.

(** ** Every call is the common routine on base listings *)

Lemma run_rank db c :
  run db c
  = rank (fun l => l) (error_of c) (collection db c) (candidates db c).
Proof.
  destruct c; simpl.
  - rewrite search_transport_listings_rank. apply rank_map.
  - rewrite search_accommodation_listings_rank. apply rank_map.
  - rewrite search_item_listings_rank. apply rank_map.
Qed.

Lemma run_total db c : exists r, run db c = Ok r.
Proof.
  rewrite run_rank.
  destruct (candidates db c) as [|x l] eqn:E.
  - destruct (rank_no_candidates (error_of c) (collection db c)) as (tag & H & _).
    eexists. exact H.
  - destruct (@rank_candidates (error_of c) (collection db c) (x :: l))
      as (best & tag & M & m & H & _); [discriminate|].
    eexists. exact H.
Qed.

(** * Properties *)

Unset Implicit Arguments.
Local Open Scope string_scope.

(** ** Best match *)



(** Of two candidates with the same score the first is returned, here the
    dearer one. *)
Example first_of_equal_scores_wins :
  search_transport_listings tie_db (Some "IPOH") None None None None None
  = Ok (Best (mkSummary "X1" "Van" "Ipoh" 200.0 "High Rating")).
Proof. reflexivity. Qed.

(** ** Suggestions *)

Lemma Forall2_map_describes (tag : Listing -> string) (l : list Listing) :
  Forall2 (fun s x => exists t, describes s x t)
    (map (fun x => summary (fun l => l) x (tag x)) l) l.
Proof.
  induction l as [|x l IH]; simpl; constructor; [|exact IH].
  exists (tag x). reflexivity.
Qed.



(** Of two listings with the same score the cheaper one is suggested
    first. *)
Example equal_scores_cheaper_first :
  search_transport_listings tie_db (Some "Penang") None None None None None
  = Ok (NoMatch "No matching transport listings found."
          [ mkSummary "X2" "Bike" "Ipoh" 100.0 "Cheap";
            mkSummary "X1" "Van" "Ipoh" 200.0 "High Rating" ]).
Proof. reflexivity. Qed.

(** The accommodation example of the specification: nothing in Penang costs
    at most 50, and the suggestions are the two accommodation listings, the
    apartment first. *)
Example penang_50_suggestions :
  run mock_listings penang_50
  = Ok (NoMatch "No matching accommodation listings found."
          [ mkSummary "A001" "Cozy Apartment in KL" "Kuala Lumpur" 150.0
              "Cheap";
            mkSummary "A002" "Family Home in Penang" "Penang" 200.0
              "High Rating" ]).
Proof. reflexivity. Qed.

(** ** Reason tags *)

Lemma tag_rule_total default l M m : exists tag, tag_rule default l M m tag.
Proof. eexists. apply tag_of_rule. Qed.



(** ** The transport example *)

(** C4, as the code has it.  With location "Kuala Lumpur" and price ceiling
    75 over the two mock transport listings, the location alone keeps both
    listings, the ceiling excludes the Camry, the Honda City is the only
    candidate and the best match, and its tag is "High Rating": its rating
    4.5 is at least 4.5 and at least 0.99 times the maximal rating 4.5 of the
    candidates, and that test comes before the price test. *)
Theorem kuala_lumpur_75_best_match :
  transport_candidates mock_listings (Some "Kuala Lumpur") None
    None None None None = [T001; T002]
  /\ transport_candidates mock_listings (Some "Kuala Lumpur") (Some 75%Q)
       None None None None = [T002]
  /\ search_transport_listings mock_listings (Some "Kuala Lumpur")
       (Some 75%Q) None None None None
     = Ok (Best (mkSummary "T002" "Honda City 2019" "Kuala Lumpur" 70.0
                   "High Rating"))
  /\ high_rating T002 4.5
  /\ cheap T002 70.0.
Proof.
  split; [reflexivity|]. split; [reflexivity|]. split; [reflexivity|].
  unfold high_rating, cheap. simpl. repeat split; lra.
Qed.

(** The tag of that call is not "Cheap". *)
Lemma kuala_lumpur_75_not_cheap :
  ~ (transport_candidates mock_listings (Some "Kuala Lumpur") (Some 75%Q)
       None None None None = [T002]
     /\ exists s,
          search_transport_listings mock_listings (Some "Kuala Lumpur")
            (Some 75%Q) None None None None = Ok (Best s)
          /\ s_listingId s = "T002"
          /\ s_reason s = "Cheap").
Proof.
  intros (_ & s & Hrun & _ & Hreason).
  vm_compute in Hrun. injection Hrun as <-. discriminate Hreason.
Qed.

(** ** The year filter *)

(** C5, as the code has it.  When the year criterion is supplied and is not
    zero, every candidate has that year.  (A year of zero is false in
    [if year:] and filters nothing.) *)
Theorem year_filter_exact db l p vt mk md (y : Z) (t : Transport) :
  y <> 0%Z ->
  In t (transport_candidates db l p vt mk md (Some y)) ->
  year t = y.
Proof.
  intros Hy Hin. unfold transport_candidates in Hin.
  apply keep_if_sound in Hin.
  - now apply Z.eqb_eq.
  - unfold int_bool. apply negb_true_iff, Z.eqb_neq. exact Hy.
Qed.

Lemma year_filter_exact_witness :
  (2019 <> 0)%Z
  /\ In T002 (transport_candidates mock_listings None None None None None
                (Some 2019%Z))
  /\ year T002 = 2019%Z.
Proof.
  assert (Hy : (2019 <> 0)%Z) by lia.
  assert (Hin : In T002 (transport_candidates mock_listings None None None
                           None None (Some 2019%Z))) by (simpl; auto).
  split; [exact Hy|]. split; [exact Hin|].
  exact (year_filter_exact mock_listings None None None None None 2019%Z T002
           Hy Hin).
Defined.

(** A supplied year of zero leaves listings of other years. *)
Lemma year_zero_filters_nothing :
  ~ (forall t,
       In t (transport_candidates mock_listings None None None None None
               (Some 0%Z)) ->
       year t = 0%Z).
Proof.
  intros H. specialize (H T001 (or_introl eq_refl)). discriminate H.
Qed.

(** ** Filtering *)

Lemma sublist_incl (A : Type) (l1 l2 : list A) : sublist l1 l2 -> incl l1 l2.
Proof. intros H x. now apply sublist_In. Qed.

Lemma candidates_unset db c : candidates db (unset c) = collection db c.
Proof. destruct c; reflexivity. Qed.

(** C6. The candidates are a subset of the collection (they are the
    collection with some listings removed); with every criterion unset no
    listing is removed; and a call that sets every criterion another call
    sets, and possibly more, has a subset of its candidates. *)
Theorem filtering_subset_and_monotone db c :
  sublist (candidates db c) (collection db c)
  /\ incl (candidates db c) (collection db c)
  /\ candidates db (unset c) = collection db c
  /\ forall c', extends c c' ->
       sublist (candidates db c') (candidates db c)
       /\ incl (candidates db c') (candidates db c).
Proof.
  split; [apply candidates_sublist|].
  split; [apply sublist_incl, candidates_sublist|].
  split; [apply candidates_unset|].
  intros c' H. split; [|apply sublist_incl]; now apply candidates_mono.
Qed.

Lemma filtering_subset_and_monotone_witness :
  extends kuala_lumpur kuala_lumpur_75
  /\ sublist (candidates mock_listings kuala_lumpur_75)
       (candidates mock_listings kuala_lumpur)
  /\ incl (candidates mock_listings kuala_lumpur_75)
       (candidates mock_listings kuala_lumpur).
Proof.
  assert (H : extends kuala_lumpur kuala_lumpur_75).
  { simpl. unfold sets_more. repeat split; auto. }
  split; [exact H|].
  exact (proj2 (proj2 (proj2
           (filtering_subset_and_monotone mock_listings kuala_lumpur)))
           kuala_lumpur_75 H).
Defined.

(** ** Totality and the negative price ceiling *)



(** ** One algorithm, three tools *)

Lemma filter_map_base (A B : Type) (f : A -> B) (q : B -> bool) l :
  map f (filter (fun x => q (f x)) l) = filter q (map f l).
Proof.
  induction l as [|x l IH]; simpl; [reflexivity|].
  destruct (q (f x)); simpl; now rewrite IH.
Qed.

Lemma keep_if_map (A B V : Type) (f : A -> B) (truth : V -> bool) arg
    (q : V -> B -> bool) l :
  map f (keep_if truth arg (fun v x => q v (f x)) l)
  = keep_if truth arg q (map f l).
Proof.
  unfold keep_if. destruct arg as [v|]; [|reflexivity].
  destruct (truth v); [apply filter_map_base | reflexivity].
Qed.

Lemma rank_same_but_error e1 e2 (all_listings cands : list Listing) :
  same_but_error (rank (fun l => l) e1 all_listings cands)
    (rank (fun l => l) e2 all_listings cands).
Proof.
  destruct cands as [|x l] eqn:E.
  - destruct (rank_no_candidates e1 all_listings) as (t1 & H1 & _).
    destruct (rank_no_candidates e2 all_listings) as (t2 & H2 & _).
    assert (Heq : forall s1 s2,
               rank (fun l => l) e1 all_listings [] = Ok (NoMatch e1 s1) ->
               rank (fun l => l) e2 all_listings [] = Ok (NoMatch e2 s2) ->
               s1 = s2).
    { unfold rank. cbn [list_bool negb].
      destruct (list_bool _); [|cbn [bind]; congruence].
      destruct (py_max _); [|discriminate]. cbn [bind].
      destruct (py_min _); [|discriminate]. cbn [bind]. congruence. }
    rewrite H1, H2. simpl. exact (Heq _ _ H1 H2).
  - rewrite <- E.
    assert (Hne : cands <> []) by (rewrite E; discriminate).
    destruct (@rank_candidates e1 all_listings cands Hne)
      as (b1 & t1 & M1 & m1 & H1 & _).
    assert (Heq : rank (fun l => l) e2 all_listings cands
                  = rank (fun l => l) e1 all_listings cands).
    { unfold rank. rewrite E. reflexivity. }
    rewrite Heq, H1. reflexivity.
Qed.

(** C8. Every tool is the one routine [rank], applied to the collection of
    its category and to the candidates its own filters leave, with its own
    error message.  With only the shared criteria set, over a database where
    the three categories hold the same base listings, the three tools have
    the same candidates and return the same result but for the text of the
    error message. *)
Theorem three_tools_one_algorithm :
  (forall db c,
     run db c
     = rank (fun l => l) (error_of c) (collection db c) (candidates db c))
  /\ (forall db location_ max_price ls,
        collection db (SearchTransport location_ max_price None None None None)
        = ls ->
        collection db (SearchAccommodation location_ max_price None None)
        = ls ->
        collection db (SearchItem location_ max_price None) = ls ->
        candidates db (SearchTransport location_ max_price None None None None)
        = shared_candidates location_ max_price ls
        /\ candidates db (SearchAccommodation location_ max_price None None)
           = shared_candidates location_ max_price ls
        /\ candidates db (SearchItem location_ max_price None)
           = shared_candidates location_ max_price ls
        /\ same_but_error
             (run db (SearchTransport location_ max_price None None None None))
             (run db (SearchAccommodation location_ max_price None None))
        /\ same_but_error
             (run db (SearchAccommodation location_ max_price None None))
             (run db (SearchItem location_ max_price None))
        /\ same_but_error
             (run db (SearchTransport location_ max_price None None None None))
             (run db (SearchItem location_ max_price None))).
Proof.
  split; [apply run_rank|].
  intros db loc p ls HT HA HI.
  assert (CT : candidates db (SearchTransport loc p None None None None)
               = shared_candidates loc p ls).
  { rewrite <- HT. unfold shared_candidates. simpl.
    unfold transport_candidates. cbn [keep_if].
    rewrite <- !keep_if_map. reflexivity. }
  assert (CA : candidates db (SearchAccommodation loc p None None)
               = shared_candidates loc p ls).
  { rewrite <- HA. unfold shared_candidates. simpl.
    unfold accommodation_candidates. cbn [keep_if].
    rewrite <- !keep_if_map. reflexivity. }
  assert (CI : candidates db (SearchItem loc p None)
               = shared_candidates loc p ls).
  { rewrite <- HI. unfold shared_candidates. simpl.
    unfold item_candidates. cbn [keep_if].
    rewrite <- !keep_if_map. reflexivity. }
  repeat split; try assumption;
    rewrite !run_rank, ?CT, ?CA, ?CI, ?HT, ?HA, ?HI;
    apply rank_same_but_error.
Qed.

Lemma three_tools_one_algorithm_witness :
  same_but_error
    (run (same_base_db [Transport_base T001; Transport_base T002])
       (SearchTransport (Some "Kuala Lumpur") (Some 75%Q) None None None None))
    (run (same_base_db [Transport_base T001; Transport_base T002])
       (SearchItem (Some "Kuala Lumpur") (Some 75%Q) None)).
Proof.
  apply (proj2 three_tools_one_algorithm
           (same_base_db [Transport_base T001; Transport_base T002])
           (Some "Kuala Lumpur") (Some 75%Q)
           [Transport_base T001; Transport_base T002]);
    reflexivity.
Defined.

(** ** Determinism *)



(** ** No runtime error *)



(** * Further properties *)

(** ** The three getters of [mock_db.py] *)

Lemma get_transport_listings_In db t :
  In t (get_transport_listings db) <-> In (IsTransport t) db.
Proof.
  induction db as [|[l|t'|a|i] db IH]; simpl; [tauto| | | |]; rewrite IH.
  - split; [tauto|]. intros [H|H]; [discriminate H | exact H].
  - split; intros [H|H]; try tauto; left; congruence.
  - split; [tauto|]. intros [H|H]; [discriminate H | exact H].
  - split; [tauto|]. intros [H|H]; [discriminate H | exact H].
Qed.

Lemma get_accommodation_listings_In db a :
  In a (get_accommodation_listings db) <-> In (IsAccommodation a) db.
Proof.
  induction db as [|[l|t|a'|i] db IH]; simpl; [tauto| | | |]; rewrite IH.
  - split; [tauto|]. intros [H|H]; [discriminate H | exact H].
  - split; [tauto|]. intros [H|H]; [discriminate H | exact H].
  - split; intros [H|H]; try tauto; left; congruence.
  - split; [tauto|]. intros [H|H]; [discriminate H | exact H].
Qed.

Lemma get_item_listings_In db i :
  In i (get_item_listings db) <-> In (IsItem i) db.
Proof.
  induction db as [|[l|t|a|i'] db IH]; simpl; [tauto| | | |]; rewrite IH.
  - split; [tauto|]. intros [H|H]; [discriminate H | exact H].
  - split; [tauto|]. intros [H|H]; [discriminate H | exact H].
  - split; [tauto|]. intros [H|H]; [discriminate H | exact H].
  - split; intros [H|H]; try tauto; left; congruence.
Qed.

Lemma getters_sublist db :
  sublist (map IsTransport (get_transport_listings db)) db
  /\ sublist (map IsAccommodation (get_accommodation_listings db)) db
  /\ sublist (map IsItem (get_item_listings db)) db.
Proof.
  induction db as [|[l|t|a|i] db (HT & HA & HI)]; simpl;
    repeat split; now constructor.
Qed.

Lemma getters_length db :
  (List.length (get_transport_listings db)
   + List.length (get_accommodation_listings db)
   + List.length (get_item_listings db)
   <= List.length db)%nat.
Proof.
  induction db as [|[l|t|a|i] db IH]; simpl; lia.
Qed.

(** X1. Each getter returns exactly the objects of its class, in the order of
    the database; an object of the base class is returned by none, so the
    three results together are at most as long as the database. *)
Theorem getters_select_by_class db :
  (forall t, In t (get_transport_listings db) <-> In (IsTransport t) db)
  /\ (forall a, In a (get_accommodation_listings db)
                <-> In (IsAccommodation a) db)
  /\ (forall i, In i (get_item_listings db) <-> In (IsItem i) db)
  /\ sublist (map IsTransport (get_transport_listings db)) db
  /\ sublist (map IsAccommodation (get_accommodation_listings db)) db
  /\ sublist (map IsItem (get_item_listings db)) db
  /\ (List.length (get_transport_listings db)
      + List.length (get_accommodation_listings db)
      + List.length (get_item_listings db)
      <= List.length db)%nat.
Proof.
  split; [intros t; apply get_transport_listings_In|].
  split; [intros a; apply get_accommodation_listings_In|].
  split; [intros i; apply get_item_listings_In|].
  destruct (getters_sublist db) as (HT & HA & HI).
  repeat split; try assumption. apply getters_length.
Qed.

(** ** Substrings *)

Lemma prefix_occurs sub s :
  prefix sub s = true <-> exists post, s = (sub ++ post)%string.
Proof.
  revert s. induction sub as [|c sub IH]; intros [|d s]; simpl.
  - split; [intros _; now exists EmptyString | reflexivity].
  - split; [intros _; now exists (String d s) | reflexivity].
  - split; [discriminate|]. intros (post & H). discriminate H.
  - destruct (ascii_dec c d) as [->|Hcd].
    + rewrite IH. split; intros (post & H); exists post; congruence.
    + split; [discriminate|]. intros (post & H). congruence.
Qed.

Lemma str_in_nil sub : str_in sub EmptyString = prefix sub EmptyString.
Proof. destruct sub; reflexivity. Qed.

Lemma str_in_cons sub d s :
  str_in sub (String d s) = (prefix sub (String d s) || str_in sub s)%bool.
Proof.
  change (str_in sub (String d s))
    with (if prefix sub (String d s) then true else str_in sub s).
  destruct (prefix sub (String d s)); reflexivity.
Qed.

Lemma str_in_occurs sub s : str_in sub s = true <-> occurs sub s.
Proof.
  unfold occurs. induction s as [|d s IH].
  - rewrite str_in_nil, prefix_occurs. split.
    + intros (post & H). now exists EmptyString, post.
    + intros (pre & post & H). destruct pre; [|discriminate H].
      now exists post.
  - rewrite str_in_cons, orb_true_iff, prefix_occurs, IH. split.
    + intros [(post & H)|(pre & post & H)].
      * now exists EmptyString, post.
      * exists (String d pre), post. simpl. now rewrite H.
    + intros (pre & post & H). destruct pre as [|e pre].
      * left. now exists post.
      * right. simpl in H. injection H as _ H. now exists pre, post.
Qed.

(** ** The filters as one pass *)

Section OnePass.

Variable A : Type.

Lemma filter_all (l : list A) : filter (fun _ => true) l = l.
Proof. induction l as [|x l IH]; simpl; [reflexivity | now rewrite IH]. Qed.

Lemma filter_twice (p q : A -> bool) (l : list A) :
  filter q (filter p l) = filter (fun x => p x && q x)%bool l.
Proof.
  induction l as [|x l IH]; simpl; [reflexivity|].
  destruct (p x); simpl; [|exact IH].
  destruct (q x); now rewrite IH.
Qed.

Lemma keep_if_kept (V : Type) (truth : V -> bool) arg (p : V -> A -> bool) l :
  keep_if truth arg p l = filter (kept truth arg p) l.
Proof.
  unfold keep_if, kept. destruct arg as [v|]; [|now rewrite filter_all].
  destruct (truth v); [reflexivity | now rewrite filter_all].
Qed.

Lemma kept_text (f : A -> string) crit (x : A) :
  kept str_bool crit (fun v x => str_in (lower v) (lower (f x))) x = true
  <-> text_ok crit (f x).
Proof.
  unfold kept, text_ok. destruct crit as [[|c v]|]; simpl str_bool; cbv iota.
  - split; [now left | reflexivity].
  - rewrite str_in_occurs. split; [now right|].
    intros [H|H]; [discriminate H | exact H].
  - tauto.
Qed.

Lemma kept_ceiling (f : A -> Q) max_price (x : A) :
  kept is_not_None max_price (fun v x => Qle_bool (f x) v) x = true
  <-> ceiling_ok max_price (f x).
Proof.
  unfold kept, ceiling_ok, is_not_None. destruct max_price as [m|]; [|tauto].
  apply Qle_bool_iff.
Qed.

Lemma kept_year (f : A -> Z) crit (x : A) :
  kept int_bool crit (fun v x => Z.eqb (f x) v) x = true <-> year_ok crit (f x).
Proof.
  unfold kept, year_ok, int_bool. destruct crit as [v|]; [|tauto].
  destruct (Z.eqb_spec v 0) as [->|Hv]; simpl.
  - split; [now left | reflexivity].
  - rewrite Z.eqb_eq. split; [now right|]. intros [H|H]; [contradiction | exact H].
Qed.

Lemma kept_guests (f : A -> Z) crit (x : A) :
  kept int_bool crit (fun v x => Z.geb (f x) v) x = true
  <-> guests_ok crit (f x).
Proof.
  unfold kept, guests_ok, int_bool. destruct crit as [v|]; [|tauto].
  destruct (Z.eqb_spec v 0) as [->|Hv]; simpl.
  - split; [now left | reflexivity].
  - rewrite Z.geb_le. split; [now right|]. intros [H|H]; [contradiction | exact H].
Qed.

End OnePass.

Lemma transport_candidate_iff db l p vt mk md y (t : Transport) :
  In t (transport_candidates db l p vt mk md y)
  <-> In t (get_transport_listings db)
      /\ text_ok l (location t) /\ ceiling_ok p (basePrice t)
      /\ text_ok vt (vehicleType t) /\ text_ok mk (make t)
      /\ text_ok md (model t) /\ year_ok y (year t).
Proof.
  unfold transport_candidates. rewrite !keep_if_kept, !filter_In.
  rewrite (kept_text _ (fun t : Transport => location t)),
    (kept_ceiling _ (fun t : Transport => basePrice t)),
    (kept_text _ vehicleType), (kept_text _ make), (kept_text _ model),
    (kept_year _ year).
  tauto.
Qed.

Lemma accommodation_candidate_iff db l p pt n (a : Accommodation) :
  In a (accommodation_candidates db l p pt n)
  <-> In a (get_accommodation_listings db)
      /\ text_ok l (location a) /\ ceiling_ok p (basePrice a)
      /\ text_ok pt (propertyType a) /\ guests_ok n (numGuests a).
Proof.
  unfold accommodation_candidates. rewrite !keep_if_kept, !filter_In.
  rewrite (kept_text _ (fun a : Accommodation => location a)),
    (kept_ceiling _ (fun a : Accommodation => basePrice a)),
    (kept_text _ propertyType), (kept_guests _ numGuests).
  tauto.
Qed.

Lemma item_candidate_iff db l p ic (i : Item) :
  In i (item_candidates db l p ic)
  <-> In i (get_item_listings db)
      /\ text_ok l (location i) /\ ceiling_ok p (basePrice i)
      /\ text_ok ic (itemCategory i).
Proof.
  unfold item_candidates. rewrite !keep_if_kept, !filter_In.
  rewrite (kept_text _ (fun i : Item => location i)),
    (kept_ceiling _ (fun i : Item => basePrice i)), (kept_text _ itemCategory).
  tauto.
Qed.




(** ** Criteria that count as unset, and letter case *)

Lemma keep_if_unset_empty (A : Type) o (p : string -> A -> bool) l :
  keep_if str_bool (unset_empty o) p l = keep_if str_bool o p l.
Proof. destruct o as [[|c v]|]; reflexivity. Qed.

Lemma keep_if_unset_zero (A : Type) o (p : Z -> A -> bool) l :
  keep_if int_bool (unset_zero o) p l = keep_if int_bool o p l.
Proof. destruct o as [[|v|v]|]; reflexivity. Qed.

(** X5. An empty string for a text criterion, and zero for the year or the
    number of guests, are the same as leaving the criterion unset: the call
    has the same candidates and the same result.  (The price ceiling is not
    touched: a ceiling of zero is a ceiling.) *)
Theorem falsy_criteria_are_unset db c :
  candidates db (normalize c) = candidates db c
  /\ run db (normalize c) = run db c.
Proof.
  destruct c as [l p vt mk md y|l p pt n|l p ic]; simpl.
  - assert (H : transport_candidates db (unset_empty l) p (unset_empty vt)
                  (unset_empty mk) (unset_empty md) (unset_zero y)
                = transport_candidates db l p vt mk md y).
    { unfold transport_candidates.
      now rewrite !keep_if_unset_empty, keep_if_unset_zero. }
    unfold search_transport_listings. now rewrite H.
  - assert (H : accommodation_candidates db (unset_empty l) p
                  (unset_empty pt) (unset_zero n)
                = accommodation_candidates db l p pt n).
    { unfold accommodation_candidates.
      now rewrite !keep_if_unset_empty, keep_if_unset_zero. }
    unfold search_accommodation_listings. now rewrite H.
  - assert (H : item_candidates db (unset_empty l) p (unset_empty ic)
                = item_candidates db l p ic).
    { unfold item_candidates. now rewrite !keep_if_unset_empty. }
    unfold search_item_listings. now rewrite H.
Qed.

Lemma lower_str_bool a b : lower a = lower b -> str_bool a = str_bool b.
Proof. destruct a, b; simpl; intros H; (discriminate H || reflexivity). Qed.

Lemma keep_if_same_text (A : Type) (f : A -> string) a b l :
  same_text a b ->
  keep_if str_bool a (fun v x => str_in (lower v) (lower (f x))) l
  = keep_if str_bool b (fun v x => str_in (lower v) (lower (f x))) l.
Proof.
  destruct a as [x|], b as [y|]; simpl; try contradiction; [|reflexivity].
  intros H. rewrite (lower_str_bool _ _ H), H. reflexivity.
Qed.



(** ** What a result tells about the candidates *)

Lemma first_best_max cands best :
  first_best cands best ->
  In best cands /\ forall x, In x cands -> (score x <= score best)%Q.
Proof.
  intros (pre & post & -> & Hpre & Hpost). split.
  - apply in_or_app. right. now left.
  - intros x Hx. apply in_app_or in Hx. destruct Hx as [Hx|[<-|Hx]].
    + apply Qlt_le_weak. now apply Hpre.
    + apply Qle_refl.
    + now apply Hpost.
Qed.

(** A best match comes from the branch with candidates. *)
Lemma run_best_inv db c s :
  run db c = Ok (Best s) ->
  exists best tag M m,
    s = summary (fun l => l) best tag
    /\ first_best (candidates db c) best
    /\ is_max M (map averageRating (candidates db c))
    /\ is_min m (map basePrice (candidates db c))
    /\ tag_rule "Best Match" best M m tag.
Proof.
  rewrite run_rank. intros Hs.
  destruct (candidates db c) as [|x l] eqn:E.
  - destruct (rank_no_candidates (error_of c) (collection db c))
      as (tag & Hrun & _).
    congruence.
  - rewrite <- E in *.
    assert (Hne : candidates db c <> []) by (rewrite E; discriminate).
    destruct (@rank_candidates (error_of c) (collection db c) _ Hne)
      as (best & tag & M & m & Hrun & H).
    rewrite Hrun in Hs. injection Hs as <-.
    exists best, tag, M, m. split; [reflexivity | exact H].
Qed.

(** An error comes from the branch without candidates. *)
Lemma run_no_match_inv db c error suggestions :
  run db c = Ok (NoMatch error suggestions) ->
  candidates db c = []
  /\ error = error_of c
  /\ exists tag : Listing -> string,
       suggestions
       = map (fun s => summary (fun l => l) s (tag s))
           (firstn 3 (sorted (sort_key (fun l => l)) (collection db c)))
       /\ forall s, In s (collection db c) ->
          exists M m,
            is_max M (map averageRating (collection db c))
            /\ is_min m (map basePrice (collection db c))
            /\ tag_rule "Related" s M m (tag s).
Proof.
  rewrite run_rank. intros Hs.
  destruct (candidates db c) as [|x l] eqn:E.
  - destruct (rank_no_candidates (error_of c) (collection db c))
      as (tag & Hrun & Htag).
    rewrite Hrun in Hs. injection Hs as <- <-.
    split; [reflexivity|]. split; [reflexivity|].
    exists tag. split; [reflexivity | exact Htag].
  - assert (Hne : x :: l <> []) by discriminate.
    destruct (@rank_candidates (error_of c) (collection db c) _ Hne)
      as (best & tag & M & m & Hrun & _).
    congruence.
Qed.

Lemma candidates_meet_criteria db c x :
  In x (candidates db c) ->
  text_ok (location_of c) (location x)
  /\ ceiling_ok (max_price_of c) (basePrice x).
Proof.
  destruct c as [l p vt mk md y|l p pt n|l p ic]; simpl;
    rewrite in_map_iff; intros (t & <- & Ht).
  - apply transport_candidate_iff in Ht. tauto.
  - apply accommodation_candidate_iff in Ht. tauto.
  - apply item_candidate_iff in Ht. tauto.
Qed.






(** ** More on suggestions and tags *)

(** X10. The error response does not depend on the criteria that failed: two
    calls of the same tool that both leave no candidate return the same
    error and the same suggestions. *)
Theorem suggestions_ignore_criteria db c c' :
  same_tool c c' ->
  candidates db c = [] ->
  candidates db c' = [] ->
  run db c = run db c'.
Proof.
  intros Htool E E'. rewrite !run_rank, E, E'.
  destruct c, c'; simpl in Htool; try contradiction; reflexivity.
Qed.

Lemma suggestions_ignore_criteria_witness :
  run mock_listings penang_50
  = run mock_listings (SearchAccommodation None (Some 0%Q) None None).
Proof.
  apply (suggestions_ignore_criteria mock_listings penang_50
           (SearchAccommodation None (Some 0%Q) None None)).
  - exact I.
  - reflexivity.
  - reflexivity.
Defined.

Lemma cheapest_tag default (l : Listing) M m tag scope :
  tag_rule default l M m tag ->
  is_min m (map basePrice scope) ->
  (0 <= basePrice l)%Q ->
  (forall x, In x scope -> (basePrice l <= basePrice x)%Q) ->
  tag = "High Rating" \/ tag = "Cheap".
Proof.
  intros Hrule [Hin _] Hpos Hmin.
  apply in_map_iff in Hin. destruct Hin as (x & <- & Hx).
  specialize (Hmin x Hx).
  destruct Hrule as [[_ ->]|[(_ & _ & ->)|(_ & Hn & _)]]; [now left|now right|].
  exfalso. apply Hn. unfold cheap. lra.
Qed.

(** X11. A listing that is the cheapest of its scope, at a price that is not
    negative, never gets the default tag: a best match that is the cheapest
    candidate is tagged "High Rating" or "Cheap", never "Best Match", and a
    suggestion that is the cheapest listing of the collection is never
    tagged "Related". *)
Theorem cheapest_never_default db c :
  (forall s,
     run db c = Ok (Best s) ->
     (0 <= s_basePrice s)%Q ->
     (forall x, In x (candidates db c) -> (s_basePrice s <= basePrice x)%Q) ->
     s_reason s = "High Rating" \/ s_reason s = "Cheap")
  /\ (forall error suggestions s,
        run db c = Ok (NoMatch error suggestions) ->
        In s suggestions ->
        (0 <= s_basePrice s)%Q ->
        (forall x, In x (collection db c) ->
                   (s_basePrice s <= basePrice x)%Q) ->
        s_reason s = "High Rating" \/ s_reason s = "Cheap").
Proof.
  split.
  - intros s Hs Hpos Hmin.
    destruct (run_best_inv db c s Hs)
      as (best & tag & M & m & -> & _ & _ & Hm & Hrule).
    exact (cheapest_tag _ _ _ _ _ _ Hrule Hm Hpos Hmin).
  - intros error suggestions s Hs Hin Hpos Hmin.
    destruct (run_no_match_inv db c _ _ Hs) as (_ & _ & tag & -> & Htag).
    apply in_map_iff in Hin. destruct Hin as (l & <- & Hl).
    assert (Hcol : In l (collection db c)).
    { apply (Permutation_in _ (sorted_perm (sort_key (fun l => l)) _)).
      exact (@sublist_In _ _ _ l (firstn_sublist 3 _) Hl). }
    destruct (Htag l Hcol) as (M & m & _ & Hm & Hrule).
    exact (cheapest_tag _ _ _ _ _ _ Hrule Hm Hpos Hmin).
Qed.

Lemma cheapest_never_default_witness :
  (s_reason (mkSummary "T002" "Honda City 2019" "Kuala Lumpur" 70.0
               "High Rating") = "High Rating"
   \/ s_reason (mkSummary "T002" "Honda City 2019" "Kuala Lumpur" 70.0
                  "High Rating") = "Cheap")
  /\ (s_reason (mkSummary "A001" "Cozy Apartment in KL" "Kuala Lumpur" 150.0
                  "Cheap") = "High Rating"
      \/ s_reason (mkSummary "A001" "Cozy Apartment in KL" "Kuala Lumpur"
                     150.0 "Cheap") = "Cheap").
Proof.
  split.
  - apply (proj1 (cheapest_never_default mock_listings kuala_lumpur_75)).
    + reflexivity.
    + simpl. lra.
    + simpl. intros x [<-|[]]. simpl. lra.
  - apply (proj2 (cheapest_never_default mock_listings penang_50)
             "No matching accommodation listings found."
             [ mkSummary "A001" "Cozy Apartment in KL" "Kuala Lumpur" 150.0
                 "Cheap";
               mkSummary "A002" "Family Home in Penang" "Penang" 200.0
                 "High Rating" ]).
    + reflexivity.
    + simpl. now left.
    + simpl. lra.
    + simpl. intros x [<-|[<-|[]]]; simpl; lra.
Defined.

Lemma ranks_before_refl a : ranks_before a a.
Proof. right. split; [reflexivity | apply Qle_refl]. Qed.



Lemma sorted_already (A : Type) (key : A -> Q * Q) (l : list A) :
  StronglySorted (key_le key) l -> sorted key l = l.
Proof.
  induction 1 as [|x l Hs IH Hx]; simpl; [reflexivity|].
  rewrite IH. destruct l as [|y l]; [reflexivity|].
  simpl. inversion Hx as [|? ? Hxy _]; subst.
  unfold key_le in Hxy. now rewrite Hxy.
Qed.

Lemma ranked_key_le (l : list Listing) :
  StronglySorted ranks_before l ->
  StronglySorted (key_le (sort_key (fun l => l))) l.
Proof.
  induction 1 as [|x xs Hs IH Hx]; constructor; [exact IH|].
  eapply Forall_impl; [|exact Hx]. intros y. apply key_le_ranks_before.
Qed.



Lemma ranks_before_score a b : ranks_before a b -> (score b <= score a)%Q.
Proof. intros [H|[H _]]; lra. Qed.


